(** * cascade.py: the Person / Pet domain model

    A shallow embedding of the parts of [cascade.py] that carry logic:
    the [Person.phone] property (getter and setter), [Person.full_name],
    [Person.pets], [Person.has_pet], the [__repr__] methods of the mapped
    classes, and the declared schema of the [pet_person_association] table
    together with the constraint checks a relational engine performs on it
    at commit time. *)

From Stdlib Require Import String Ascii List ZArith Lia Bool PeanoNat.
Import ListNotations.

Local Open Scope string_scope.

(** ** Python primitives used by the model *)

Module Py.

(** Exceptions the modelled code can raise. *)
Inductive exn : Type :=
| Exception (msg : string)
| TypeError (msg : string)
| AttributeError (attr : string)
| IntegrityError (constraint : string).

(** The result of evaluating an expression: a value or a raised exception. *)
Inductive outcome (A : Type) : Type :=
| Return (a : A)
| Raise (e : exn).
Arguments Return {A} a.
Arguments Raise {A} e.

(** Code that runs against a mutable object of type [S]: it yields an
    outcome and the object as it is left behind.  A raised exception keeps
    whatever was written before the raise. *)
Definition M (S A : Type) : Type := S -> outcome A * S.

Definition ret {S A} (a : A) : M S A := fun s => (Return a, s).
Definition raise {S A} (e : exn) : M S A := fun s => (Raise e, s).
Definition bind {S A B} (m : M S A) (k : A -> M S B) : M S B :=
  fun s => match m s with
           | (Return a, s') => k a s'
           | (Raise e, s') => (Raise e, s')
           end.
Definition gets {S A} (f : S -> A) : M S A := fun s => (Return (f s), s).
Definition modify {S} (f : S -> S) : M S unit := fun s => (Return tt, f s).

(** [old] is a prefix of [s] and [skip] characters of an earlier match are
    still to be dropped: the left-to-right, non-overlapping scan of
    [str.replace] for a non-empty [old]. *)
Fixpoint replace_scan (old new : string) (skip : nat) (s : string) : string :=
  match s with
  | EmptyString => EmptyString
  | String c s' =>
      match skip with
      | S k => replace_scan old new k s'
      | O =>
          if prefix old s
          then new ++ replace_scan old new (String.length old - 1) s'
          else String c (replace_scan old new 0 s')
      end
  end.

(** With an empty [old], [str.replace] puts [new] before every character
    and at the end. *)
Fixpoint replace_empty (new s : string) : string :=
  match s with
  | EmptyString => new
  | String c s' => new ++ String c (replace_empty new s')
  end.

(** [s.replace(old, new)] *)
Definition replace (s old new : string) : string :=
  match old with
  | EmptyString => replace_empty new s
  | String _ _ => replace_scan old new 0 s
  end.

(** [len(s)] *)
Definition len (s : string) : nat := String.length s.

Fixpoint drop (n : nat) (s : string) : string :=
  match n, s with
  | O, _ => s
  | S _, EmptyString => EmptyString
  | S k, String _ s' => drop k s'
  end.

Fixpoint take (n : nat) (s : string) : string :=
  match n, s with
  | O, _ => EmptyString
  | S _, EmptyString => EmptyString
  | S k, String c s' => String c (take k s')
  end.

(** [s[lo:hi]] for literal non-negative bounds: both are clamped to the
    length of [s], and the slice is empty when [hi <= lo]. *)
Definition slice (s : string) (lo hi : nat) : string :=
  take (hi - lo) (drop lo s).

(** What slicing [None] raises. *)
Definition none_getitem : exn :=
  TypeError "'NoneType' object has no attribute '__getitem__'".

(** [num[lo:hi]] where [num] may be [None]. *)
Definition getslice {S} (num : option string) (lo hi : nat) : M S string :=
  match num with
  | Some s => ret (slice s lo hi)
  | None => raise none_getitem
  end.

(** [template % args] for templates whose only conversion is [%s] applied
    to strings.  [pct] records that the previous character was a [%]. *)
Fixpoint format_scan (pct : bool) (template : string) (args : list string)
  : outcome string :=
  match template with
  | EmptyString =>
      if pct then Raise (TypeError "incomplete format")
      else match args with
           | [] => Return EmptyString
           | _ :: _ =>
               Raise (TypeError
                 "not all arguments converted during string formatting")
           end
  | String c t =>
      if pct then
        if Ascii.eqb c "s" then
          match args with
          | a :: args' =>
              match format_scan false t args' with
              | Return r => Return (a ++ r)
              | Raise e => Raise e
              end
          | [] => Raise (TypeError "not enough arguments for format string")
          end
        else if Ascii.eqb c "%" then
          match format_scan false t args with
          | Return r => Return (String "%" r)
          | Raise e => Raise e
          end
        else Raise (TypeError "unsupported format character")
      else if Ascii.eqb c "%" then format_scan true t args
      else match format_scan false t args with
           | Return r => Return (String c r)
           | Raise e => Raise e
           end
  end.

Definition format {S} (template : string) (args : list string) : M S string :=
  fun s => (format_scan false template args, s).

End Py.

Notation "x <- m ;; k" := (Py.bind m (fun x => k))
  (at level 61, m at next level, right associativity).
Notation "m ;;; k" := (Py.bind m (fun _ => k))
  (at level 61, right associativity).

(** ** [str.format] *)

Module PyFormat.

(** What [template.format(args)] can raise.  The templates of [cascade.py]
    use the auto-numbered field [{}] only; a field with a name, an index, a
    conversion or a format spec is reported as [NotModelled]. *)
Inductive error : Type :=
| ValueError (msg : string)
| IndexError (msg : string)
| NotModelled.

Inductive result : Type :=
| Ok (s : string)
| Err (e : error).

Definition on_ok (f : string -> string) (r : result) : result :=
  match r with
  | Ok s => Ok (f s)
  | Err e => Err e
  end.

(** The scanner has just read ordinary text, an opening brace or a closing
    brace. *)
Inductive mode : Type := Text | Open | Close.

Definition single_open : error :=
  ValueError "Single '{' encountered in format string".
Definition single_close : error :=
  ValueError "Single '}' encountered in format string".

(** Left to right: [{{] and [}}] are literal braces, [{}] takes the next
    argument, and arguments left over are ignored. *)
Fixpoint format_scan (m : mode) (template : string) (args : list string)
  : result :=
  match template with
  | EmptyString =>
      match m with
      | Text => Ok EmptyString
      | Open => Err single_open
      | Close => Err single_close
      end
  | String c t =>
      match m with
      | Text =>
          if Ascii.eqb c "{" then format_scan Open t args
          else if Ascii.eqb c "}" then format_scan Close t args
          else on_ok (String c) (format_scan Text t args)
      | Open =>
          if Ascii.eqb c "{" then on_ok (String "{") (format_scan Text t args)
          else if Ascii.eqb c "}" then
            match args with
            | a :: args' => on_ok (append a) (format_scan Text t args')
            | [] => Err (IndexError "tuple index out of range")
            end
          else Err NotModelled
      | Close =>
          if Ascii.eqb c "}" then on_ok (String "}") (format_scan Text t args)
          else Err single_close
      end
  end.

(** [template.format( *args )], the arguments already converted by [str]. *)
Definition format (template : string) (args : list string) : result :=
  format_scan Text template args.

(** [str(v)] for a value that is a string or [None]. *)
Definition str_of (v : option string) : string :=
  match v with
  | Some s => s
  | None => "None"
  end.

End PyFormat.

(** ** Domain model *)

(** [class Pet(Base)].  Mapped classes define no [__eq__], so [==] on two
    pets is object identity, carried here by [oid]. *)
Module Pet.
Record t : Type := mk {
  oid : nat;
  id : option Z;
  name : string;
  age : option Z;
  adopted : option bool;
}.

(** [a == b] *)
Definition eq (a b : t) : bool := Nat.eqb (oid a) (oid b).
End Pet.

(** [class PetPersonAssociation(Base)], as an object seen from its person. *)
Module PetPersonAssociation.
Record t : Type := mk {
  id : option Z;
  pet_id : option Z;
  person_id : option Z;
  years : option Z;
  pet : Pet.t;
}.
End PetPersonAssociation.

(** [class Person(Base)].  [first_name] and [last_name] are declared
    [nullable=False] and hold strings; [age] and [_phone] may be [None]. *)
Module Person.

Record t : Type := mk {
  id : option Z;
  first_name : string;
  last_name : string;
  age : option Z;
  _phone : option string;
  (* backref of PetPersonAssociation.person *)
  pet_associations : list PetPersonAssociation.t;
  (* backref of Pet.people, over the pet_person table *)
  pets : list Pet.t;
}.

Definition set__phone (number : string) (self : t) : t :=
  {| id := id self; first_name := first_name self;
     last_name := last_name self; age := age self;
     _phone := Some number;
     pet_associations := pet_associations self;
     pets := pets self |}.

(** [@property def phone(self)] *)
Definition phone : Py.M t string :=
  num <- Py.gets _phone ;;
  a <- Py.getslice num 0 3 ;;
  b <- Py.getslice num 3 6 ;;
  c <- Py.getslice num 6 10 ;;
  Py.format "%s-%s-%s" [a; b; c].

(** [@phone.setter def phone(self, value)] *)
Definition phone_setter (value : string) : Py.M t unit :=
  let number := Py.replace value "-" "" in
  let number := Py.replace number " " "" in
  if negb (Nat.eqb (Py.len number) 10)
  then Py.raise (Py.Exception "Phone number not 10 digits long")
  else Py.modify (set__phone number).

(** [@property def full_name(self)] *)
Definition full_name (self : t) : string :=
  first_name self ++ " " ++ last_name self.

(** The relationship collections of association objects that the mapper
    installs on a Person instance, by attribute name: the only one is the
    backref of [PetPersonAssociation.person], ['pet_associations']. *)
Definition relationship_collections (self : t)
  : list (string * list PetPersonAssociation.t) :=
  [("pet_associations", pet_associations self)].

(** The other attribute names of the class, [pets] apart: columns,
    properties, methods and the backref of [PetNicknames.person]. *)
Definition other_attributes : list string :=
  ["__tablename__"; "id"; "first_name"; "last_name"; "age"; "_phone";
   "phone"; "full_name"; "has_pet"; "__repr__"; "pet_nickname"].

Fixpoint lookup {A} (name : string) (l : list (string * A)) : option A :=
  match l with
  | [] => None
  | (k, v) :: l' => if String.eqb name k then Some v else lookup name l'
  end.

(** [self.<name>] where the code goes on to iterate over association
    objects.  A name the class does not define raises [AttributeError].
    [pets] holds Pet objects: empty, it iterates like any empty list;
    otherwise its first element has no attribute [pet]. *)
Definition getattr_collection (name : string)
  : Py.M t (list PetPersonAssociation.t) :=
  fun self =>
    match lookup name (relationship_collections self) with
    | Some l => (Py.Return l, self)
    | None =>
        if String.eqb name "pets" then
          match pets self with
          | [] => (Py.Return [], self)
          | _ :: _ => (Py.Raise (Py.AttributeError "pet"), self)
          end
        else if existsb (String.eqb name) other_attributes
        then (Py.Raise (Py.TypeError "not a collection of associations"), self)
        else (Py.Raise (Py.AttributeError name), self)
    end.

(** [[ assoc.pet for assoc in assocs ]] *)
Definition pets_of (assocs : list PetPersonAssociation.t) : list Pet.t :=
  map PetPersonAssociation.pet assocs.

(** The body of [@property def pets(self)], lines 170-172. *)
Definition pets_property : Py.M t (list Pet.t) :=
  assocs <- getattr_collection "pet_assocs" ;;
  Py.ret (pets_of assocs).

(** What the class attribute [pets] can be bound to: a property with its
    body, or the collection of a mapped relationship. *)
Inductive binding : Type :=
| Property (body : Py.M t (list Pet.t))
| Relationship (collection : t -> list Pet.t).

(** The class attribute [pets] is assigned twice: by the class body, to the
    property, and then by the mapper, which installs the backref of
    [Pet.people] (lines 126-127) under the same name when the mappings are
    configured. *)
Definition pets_bindings : list binding :=
  [Property pets_property; Relationship pets].

Definition read (b : binding) : Py.M t (list Pet.t) :=
  match b with
  | Property body => body
  | Relationship collection => Py.gets collection
  end.

(** [self.pets]: the last assignment to the class attribute decides. *)
Definition get_pets : Py.M t (list Pet.t) :=
  read (last pets_bindings (Property pets_property)).


(** The loop of [has_pet]; [None] is Python's [None]. *)
Fixpoint has_pet_loop (assocs : list PetPersonAssociation.t) (pet : Pet.t)
  : option Z :=
  match assocs with
  | [] => None
  | assoc :: rest =>
      if Pet.eq (PetPersonAssociation.pet assoc) pet
      then PetPersonAssociation.years assoc
      else has_pet_loop rest pet
  end.

(** [def has_pet(self, pet)] *)
Definition has_pet (pet : Pet.t) : Py.M t (option Z) :=
  assocs <- getattr_collection "pet_assocs" ;;
  Py.ret (has_pet_loop assocs pet).

(** The operations of the class that a caller can apply to an instance. *)
Inductive call : Type :=
| GetPhone
| SetPhone (value : string)
| GetFullName
| GetPets
| HasPet (pet : Pet.t).

(** The instance as one call leaves it, whether it returned or raised. *)
Definition after (c : call) (self : t) : t :=
  match c with
  | GetPhone => snd (phone self)
  | SetPhone value => snd (phone_setter value self)
  | GetFullName => self
  | GetPets => snd (get_pets self)
  | HasPet pet => snd (has_pet pet self)
  end.

Definition after_all (cs : list call) (self : t) : t :=
  fold_left (fun s c => after c s) cs self.

(** [Person(first_name=..., last_name=..., age=...)]: the columns not
    given are [None] and the collections are empty. *)
Definition new (first last : string) (age0 : option Z) : t :=
  {| id := None; first_name := first; last_name := last; age := age0;
     _phone := None; pet_associations := []; pets := [] |}.

(** [def __repr__(self)] *)
Definition __repr__ (self : t) : PyFormat.result :=
  PyFormat.format "Person: {} " [full_name self].

(** [Person(first_name=..., last_name=..., age=..., phone=...)], as the
    script builds its people: every keyword is assigned to the new object,
    [phone] through the setter; if the setter raises, no object results. *)
Definition create (first last : string) (age0 : option Z) (phone0 : string)
  : Py.outcome t :=
  match phone_setter phone0 (new first last age0) with
  | (Py.Return _, self) => Py.Return self
  | (Py.Raise e, _) => Py.Raise e
  end.

End Person.

(** [class Species(Base)] *)
Module Species.
Record t : Type := mk {
  id : option Z;
  name : string;
}.

(** [def __repr__(self)] *)
Definition __repr__ (self : t) : string := name self.
End Species.

(** [class Breed(Base)]; [species] is the backref of [Species.breeds]. *)
Module Breed.
Record t : Type := mk {
  id : option Z;
  name : string;
  species_id : option Z;
  species : Species.t;
}.

(** [def __repr__(self)]: a species is formatted by its own [__repr__]. *)
Definition __repr__ (self : t) : PyFormat.result :=
  PyFormat.format "{}: {}" [name self; Species.__repr__ (species self)].
End Breed.

(** [class Trait(Base)].  [name] is checked for NULL at INSERT only: on an
    object in memory it is a string or [None]. *)
Module Trait.
Record t : Type := mk {
  id : option Z;
  name : option string;
}.

(** [def __repr__(self)] *)
Definition __repr__ (self : t) : PyFormat.result :=
  PyFormat.format "{}" [PyFormat.str_of (name self)].
End Trait.

(** [class Shelter(Base)].  [name] is checked for NULL at INSERT only: on
    an object in memory it is a string or [None]. *)
Module Shelter.
Record t : Type := mk {
  id : option Z;
  name : option string;
  website : option string;
}.

(** [def __repr__(self)] *)
Definition __repr__ (self : t) : PyFormat.result :=
  PyFormat.format "Shelter: {}" [PyFormat.str_of (name self)].
End Shelter.

(** [class PetNicknames(Base)]; [nickname] is a nullable column. *)
Module PetNicknames.
Record t : Type := mk {
  id : option Z;
  pet_id : option Z;
  person_id : option Z;
  nickname : option string;
}.

(** [def __repr__(self)] *)
Definition __repr__ (self : t) : PyFormat.result :=
  PyFormat.format "{}" [PyFormat.str_of (nickname self)].
End PetNicknames.


(** ** The [pet_person_association] table and its engine-side checks

    [cascade.py] only declares the table: its columns, which of them are
    [nullable=False], and the [UniqueConstraint].  Enforcement is the
    database's, when the session flushes its pending rows at commit.  The
    schema below is the declared one; [insert] and [commit] are the checks
    a relational engine runs for such declarations (NOT NULL, PRIMARY KEY
    and UNIQUE, with NULL distinct from every value).  The foreign keys
    are part of the schema but of no check: the SQLite engine the script
    creates does not enforce them. *)

Module Engine.

Record Column : Type := mkColumn {
  cname : string;
  primary_key : bool;
  nullable : bool;
  (* ForeignKey('table.column'), when declared *)
  foreign_key : option string;
}.

(** [UniqueConstraint('pet_id', 'person_id', name=...)] *)
Record UniqueConstraint : Type := mkUnique {
  ucolumns : list string;
  uname : string;
}.

Record Table : Type := mkTable {
  tablename : string;
  columns : list Column;
  table_args : list UniqueConstraint;
}.

(** A stored row: the value of each column by name; [None] is NULL. *)
Definition row : Type := list (string * option Z).

Fixpoint cell (r : row) (c : string) : option Z :=
  match r with
  | [] => None
  | (k, v) :: r' => if String.eqb c k then v else cell r' c
  end.

Definition is_null (v : option Z) : bool :=
  match v with None => true | Some _ => false end.

(** NOT NULL: every column declared [nullable=False] holds a value. *)
Definition not_null_ok (t : Table) (r : row) : bool :=
  forallb (fun c => nullable c || negb (is_null (cell r (cname c))))
          (columns t).

(** Two rows collide on a list of columns when they hold equal non-NULL
    values in each of them (SQL compares NULL as distinct from anything). *)
Definition collide (cols : list string) (r r' : row) : bool :=
  forallb (fun c => match cell r c, cell r' c with
                    | Some a, Some b => Z.eqb a b
                    | _, _ => false
                    end) cols.

Definition primary_key_columns (t : Table) : list string :=
  map cname (filter primary_key (columns t)).

(** The uniqueness checks of a table: its primary key and every declared
    [UniqueConstraint]; the first one violated is reported. *)
Definition unique_checks (t : Table) : list UniqueConstraint :=
  mkUnique (primary_key_columns t) "PRIMARY KEY" :: table_args t.

Definition violated (stored : list row) (r : row) (u : UniqueConstraint)
  : bool :=
  existsb (collide (ucolumns u) r) stored.

(** The next value of an integer key column: one more than the largest
    stored. *)
Definition next_value (c : string) (stored : list row) : Z :=
  1 + fold_right Z.max 0%Z
        (map (fun r => match cell r c with Some v => v | None => 0%Z end)
             stored).

(** A primary key column left NULL is filled in by the engine. *)
Definition autoincrement (t : Table) (stored : list row) (r : row) : row :=
  fold_right
    (fun c r' => if is_null (cell r' c)
                 then (c, Some (next_value c stored)) :: r'
                 else r')
    r (primary_key_columns t).

(** INSERT of one row: the key is assigned, the constraints are checked,
    then the row is appended. *)
Definition insert (t : Table) (stored : list row) (r : row)
  : Py.outcome (list row) :=
  let r := autoincrement t stored r in
  if negb (not_null_ok t r)
  then Py.Raise (Py.IntegrityError "NOT NULL")
  else match find (violated stored r) (unique_checks t) with
       | Some u => Py.Raise (Py.IntegrityError (uname u))
       | None => Py.Return (stored ++ [r])%list
       end.

Fixpoint insert_all (t : Table) (stored : list row) (rs : list row)
  : Py.outcome (list row) :=
  match rs with
  | [] => Py.Return stored
  | r :: rs' =>
      match insert t stored r with
      | Py.Return stored' => insert_all t stored' rs'
      | Py.Raise e => Py.Raise e
      end
  end.

(** A session on one table: the committed rows and the pending ones. *)
Record Session : Type := mkSession {
  committed : list row;
  pending : list row;
}.

Definition empty : Session := {| committed := []; pending := [] |}.

(** [db_session.add_all(rows)] *)
Definition add_all (rs : list row) : Py.M Session unit :=
  Py.modify (fun s => {| committed := committed s;
                         pending := (pending s ++ rs)%list |}).

(** [db_session.commit()]: the pending rows are inserted in order, all or
    nothing; on an integrity error the unit of work is rolled back and
    nothing of it is stored. *)
Definition commit (t : Table) : Py.M Session unit :=
  fun s =>
    match insert_all t (committed s) (pending s) with
    | Py.Return stored' =>
        (Py.Return tt, {| committed := stored'; pending := [] |})
    | Py.Raise e =>
        (Py.Raise e, {| committed := committed s; pending := [] |})
    end.

(** The schema that [class PetPersonAssociation] declares. *)
Definition pet_person_association : Table :=
  {| tablename := "pet_person_association";
     columns :=
       [ mkColumn "id" true false None;
         mkColumn "pet_id" false false (Some "pet.id");
         mkColumn "person_id" false false (Some "person.id");
         mkColumn "years" false true None ];
     table_args :=
       [ mkUnique ["pet_id"; "person_id"]
                  "person_pet_uniqueness_constraint" ] |}.

(** The row flushed for an association object. *)
Definition to_row (a : PetPersonAssociation.t) : row :=
  [ ("id", PetPersonAssociation.id a);
    ("pet_id", PetPersonAssociation.pet_id a);
    ("person_id", PetPersonAssociation.person_id a);
    ("years", PetPersonAssociation.years a) ].

(** What a client does with a session. *)
Inductive action : Type :=
| AddAll (rs : list row)
| Commit.

Definition step (t : Table) (a : action) (s : Session) : Session :=
  match a with
  | AddAll rs => snd (add_all rs s)
  | Commit => snd (commit t s)
  end.

Definition run (t : Table) (acts : list action) (s : Session) : Session :=
  fold_left (fun s a => step t a s) acts s.

(** The (pet, person) pair a row references. *)
Definition pair_of (r : row) : option Z * option Z :=
  (cell r "pet_id", cell r "person_id").

End Engine.

(** ** Vocabulary of the properties *)

(** [s] without the occurrences of the character [c]. *)
Fixpoint remove (c : ascii) (s : string) : string :=
  match s with
  | EmptyString => EmptyString
  | String a s' =>
      if Ascii.eqb a c then remove c s' else String a (remove c s')
  end.

(** The characters the phone setter strips. *)
Definition is_separator (c : ascii) : bool :=
  Ascii.eqb c "-" || Ascii.eqb c " ".

(** [s] without its separators, in one pass. *)
Fixpoint strip (s : string) : string :=
  match s with
  | EmptyString => EmptyString
  | String a s' => if is_separator a then strip s' else String a (strip s')
  end.

(** The number the setter computes from its argument. *)
Definition stripped (value : string) : string :=
  Py.replace (Py.replace value "-" "") " " "".

Fixpoint occurs (c : ascii) (s : string) : bool :=
  match s with
  | EmptyString => false
  | String a s' => Ascii.eqb a c || occurs c s'
  end.

(** [punctuated d x]: [x] is the sequence [d] of non-separator characters
    with hyphens and spaces inserted anywhere. *)
Inductive punctuated : string -> string -> Prop :=
| punctuated_nil : punctuated EmptyString EmptyString
| punctuated_keep c d x :
    is_separator c = false -> punctuated d x ->
    punctuated (String c d) (String c x)
| punctuated_sep c d x :
    is_separator c = true -> punctuated d x ->
    punctuated d (String c x).

(** The invariant of the stored phone value. *)
Definition canonical (number : string) : bool :=
  Nat.eqb (String.length number) 10
  && negb (occurs "-" number) && negb (occurs " " number).

Definition phone_ok (self : Person.t) : bool :=
  match Person._phone self with
  | None => true
  | Some number => canonical number
  end.

Definition is_setter (c : Person.call) : bool :=
  match c with Person.SetPhone _ => true | _ => false end.

(** The invariant of the stored association rows: every row references a
    pet and a person, and no two rows reference the same pair. *)
Definition pair_full (r : Engine.row) : Prop :=
  Engine.cell r "pet_id" <> None /\ Engine.cell r "person_id" <> None.

Definition pairs_unique (stored : list Engine.row) : Prop :=
  NoDup (map Engine.pair_of stored) /\ Forall pair_full stored.

(** Sample objects: Tom has had Spot for three years, by an association
    row; no row of the pet_person table links them. *)
Definition spot : Pet.t :=
  {| Pet.oid := 1; Pet.id := Some 1%Z; Pet.name := "Spot";
     Pet.age := Some 2%Z; Pet.adopted := Some true |}.

Definition goldie : Pet.t :=
  {| Pet.oid := 2; Pet.id := Some 2%Z; Pet.name := "Goldie";
     Pet.age := Some 9%Z; Pet.adopted := Some false |}.

Definition tom_spot : PetPersonAssociation.t :=
  {| PetPersonAssociation.id := Some 1%Z;
     PetPersonAssociation.pet_id := Some 1%Z;
     PetPersonAssociation.person_id := Some 1%Z;
     PetPersonAssociation.years := Some 3%Z;
     PetPersonAssociation.pet := spot |}.

Definition tom : Person.t :=
  {| Person.id := Some 1%Z; Person.first_name := "Tom";
     Person.last_name := "Smith"; Person.age := Some 52%Z;
     Person._phone := Some "5555555555";
     Person.pet_associations := [tom_spot];
     Person.pets := [] |}.

(** A second, not yet flushed association object for the same pair. *)
Definition tom_spot_again : PetPersonAssociation.t :=
  {| PetPersonAssociation.id := None;
     PetPersonAssociation.pet_id := Some 1%Z;
     PetPersonAssociation.person_id := Some 1%Z;
     PetPersonAssociation.years := Some 7%Z;
     PetPersonAssociation.pet := spot |}.

(** A new association object: Tom takes in Goldie. *)
Definition tom_goldie : PetPersonAssociation.t :=
  {| PetPersonAssociation.id := None;
     PetPersonAssociation.pet_id := Some 2%Z;
     PetPersonAssociation.person_id := Some 1%Z;
     PetPersonAssociation.years := None;
     PetPersonAssociation.pet := goldie |}.

(** The invariant of the primary key: every stored row has an id, and no
    two rows have the same. *)
Definition id_of (r : Engine.row) : option Z := Engine.cell r "id".

Definition ids_unique (stored : list Engine.row) : Prop :=
  NoDup (map id_of stored) /\ Forall (fun r => id_of r <> None) stored.

(** A row of a new association object: no id yet, a pet and a person. *)
Definition new_row (r : Engine.row) : Prop :=
  Engine.cell r "id" = None /\ pair_full r.

(** The integers the database driver takes: signed, of 64 bits. *)
Definition int64 (v : Z) : Prop := (- 2 ^ 63 <= v < 2 ^ 63)%Z.

Definition fits (c : option Z) : Prop :=
  match c with
  | Some v => int64 v
  | None => True
  end.

(** An association object not yet flushed: no id, a pet and a person, and
    integer values the driver takes. *)
Definition new_association (a : PetPersonAssociation.t) : Prop :=
  PetPersonAssociation.id a = None /\
  PetPersonAssociation.pet_id a <> None /\
  PetPersonAssociation.person_id a <> None /\
  fits (PetPersonAssociation.pet_id a) /\
  fits (PetPersonAssociation.person_id a) /\
  fits (PetPersonAssociation.years a).

(** ** Strings *)

Lemma replace_char_empty (c : ascii) (s : string) :
  Py.replace s (String c EmptyString) EmptyString = remove c s.
Proof.
  unfold Py.replace.
  induction s as [|a s IH]; simpl; [reflexivity|].
  destruct (ascii_dec c a) as [->|Hne].
  - rewrite Ascii.eqb_refl. destruct s; simpl in *; exact IH.
  - destruct (Ascii.eqb a c) eqn:E.
    + apply Ascii.eqb_eq in E. congruence.
    + now rewrite IH.
Qed.

Lemma stripped_remove (value : string) :
  stripped value = remove " " (remove "-" value).
Proof.
  unfold stripped. now rewrite !replace_char_empty.
Qed.

Lemma remove_remove_strip (s : string) :
  remove " " (remove "-" s) = strip s.
Proof.
  induction s as [|a s IH]; simpl; [reflexivity|].
  unfold is_separator.
  destruct (Ascii.eqb a "-") eqn:E1; simpl; [exact IH|].
  destruct (Ascii.eqb a " ") eqn:E2; simpl; now rewrite IH.
Qed.

Lemma stripped_strip (value : string) : stripped value = strip value.
Proof. now rewrite stripped_remove, remove_remove_strip. Qed.

Lemma occurs_strip (c : ascii) (s : string) :
  is_separator c = true -> occurs c (strip s) = false.
Proof.
  intros Hc. induction s as [|a s IH]; simpl; [reflexivity|].
  destruct (is_separator a) eqn:Ea; [exact IH|].
  simpl. rewrite IH, orb_false_r.
  destruct (Ascii.eqb a c) eqn:E; [|reflexivity].
  apply Ascii.eqb_eq in E. congruence.
Qed.

Lemma strip_fixed (s : string) :
  occurs "-" s = false -> occurs " " s = false -> strip s = s.
Proof.
  induction s as [|a s IH]; simpl; [reflexivity|].
  intros H1 H2. apply orb_false_elim in H1 as [H1 H1'].
  apply orb_false_elim in H2 as [H2 H2'].
  unfold is_separator. rewrite H1, H2. simpl. now rewrite IH.
Qed.

Lemma punctuated_strip (d x : string) : punctuated d x -> strip x = d.
Proof.
  induction 1 as [|c d x Hc _ IH|c d x Hc _ IH]; simpl.
  - reflexivity.
  - now rewrite Hc, IH.
  - now rewrite Hc.
Qed.

Lemma punctuated_by_strip (x : string) : punctuated (strip x) x.
Proof.
  induction x as [|a x IH]; simpl; [constructor|].
  destruct (is_separator a) eqn:Ea; now constructor.
Qed.

Lemma length_app (s1 s2 : string) :
  String.length (s1 ++ s2) = String.length s1 + String.length s2.
Proof. induction s1 as [|a s1 IH]; simpl; [reflexivity|now rewrite IH]. Qed.

(** A string of ten characters, spelled out. *)
Lemma length_10_inv (s : string) :
  String.length s = 10 ->
  exists a b c, s = a ++ b ++ c /\
    String.length a = 3 /\ String.length b = 3 /\ String.length c = 4 /\
    Py.slice s 0 3 = a /\ Py.slice s 3 6 = b /\ Py.slice s 6 10 = c.
Proof.
  intros H.
  do 10 (destruct s as [|? s]; [discriminate H|]).
  destruct s; [|discriminate H].
  eexists (String _ (String _ (String _ ""))),
          (String _ (String _ (String _ ""))),
          (String _ (String _ (String _ (String _ "")))).
  repeat split; reflexivity.
Qed.

(** ** The phone property *)

Lemma phone_setter_spec (value : string) (self : Person.t) :
  Person.phone_setter value self =
    if Nat.eqb (String.length (strip value)) 10
    then (Py.Return tt, Person.set__phone (strip value) self)
    else (Py.Raise (Py.Exception "Phone number not 10 digits long"), self).
Proof.
  unfold Person.phone_setter. fold (stripped value).
  rewrite stripped_strip. unfold Py.len.
  destruct (Nat.eqb (String.length (strip value)) 10); reflexivity.
Qed.

Lemma phone_spec (self : Person.t) :
  Person.phone self =
    match Person._phone self with
    | Some num =>
        (Py.Return (Py.slice num 0 3 ++ "-" ++ Py.slice num 3 6 ++ "-"
                    ++ Py.slice num 6 10), self)
    | None =>
        (Py.Raise Py.none_getitem,
         self)
    end.
Proof.
  unfold Person.phone, Py.bind, Py.gets.
  destruct (Person._phone self) as [num|]; simpl; [|reflexivity].
  unfold Py.format. simpl.
  repeat f_equal.
  induction (Py.slice num 6 10); simpl; congruence.
Qed.

(** C1. Whatever string the phone setter is given, the number it computes is
    the argument with its hyphens removed and then its spaces removed, every
    other character kept in order; when ten characters remain, that string is
    stored verbatim in [_phone] and the call returns.  Nothing but the
    length is checked, so characters that are not digits are stored too. *)
Theorem phone_setter_stores_stripped (self : Person.t) (value : string) :
  Py.len (stripped value) = 10 ->
  stripped value = remove " " (remove "-" value) /\
  stripped value = strip value /\
  Person.phone_setter value self =
    (Py.Return tt, Person.set__phone (stripped value) self) /\
  Person._phone (snd (Person.phone_setter value self)) =
    Some (stripped value).
Proof.
  intros Hlen.
  assert (E : Person.phone_setter value self =
              (Py.Return tt, Person.set__phone (stripped value) self)).
  { rewrite phone_setter_spec, <- stripped_strip.
    unfold Py.len in Hlen. now rewrite Hlen. }
  repeat split.
  - apply stripped_remove.
  - apply stripped_strip.
  - exact E.
  - now rewrite E.
Qed.

Lemma phone_setter_stores_stripped_witness :
  Py.len (stripped "ab-cd ef-ghij") = 10 /\
  Person._phone
    (snd (Person.phone_setter "ab-cd ef-ghij" (Person.new "Tom" "Smith" None)))
  = Some "abcdefghij".
Proof.
  split; [reflexivity|].
  exact (proj2 (proj2 (proj2
    (phone_setter_stores_stripped (Person.new "Tom" "Smith" None)
       "ab-cd ef-ghij" eq_refl)))).
Defined.

(** C2. When the argument, stripped of hyphens and spaces, is not ten
    characters long, the phone setter raises
    [Exception("Phone number not 10 digits long")] and leaves the instance,
    and with it the stored phone value, as it was. *)
Theorem phone_setter_rejects_wrong_length (self : Person.t) (value : string) :
  Py.len (stripped value) <> 10 ->
  Person.phone_setter value self =
    (Py.Raise (Py.Exception "Phone number not 10 digits long"), self) /\
  Person._phone (snd (Person.phone_setter value self)) = Person._phone self.
Proof.
  intros Hlen.
  assert (E : Person.phone_setter value self =
              (Py.Raise (Py.Exception "Phone number not 10 digits long"),
               self)).
  { rewrite phone_setter_spec, <- stripped_strip.
    unfold Py.len in Hlen.
    destruct (Nat.eqb (String.length (stripped value)) 10) eqn:E;
      [apply Nat.eqb_eq in E; contradiction|reflexivity]. }
  split; [exact E|now rewrite E].
Qed.

Lemma phone_setter_rejects_wrong_length_witness :
  Py.len (stripped "555-555-555") <> 10 /\
  Person._phone
    (snd (Person.phone_setter "555-555-555"
            (Person.set__phone "5552439988" (Person.new "Sue" "Johson" None))))
  = Some "5552439988".
Proof.
  assert (H : Py.len (stripped "555-555-555") <> 10) by (vm_compute; lia).
  split; [exact H|].
  exact (proj2 (phone_setter_rejects_wrong_length
    (Person.set__phone "5552439988" (Person.new "Sue" "Johson" None))
    "555-555-555" H)).
Defined.

(** C3. When the stored value is a string of ten characters, the phone
    getter returns its characters 0-2, 3-5 and 6-9 joined by hyphens: the
    stored value cut at offsets 3 and 6, in the form AAA-BBB-CCCC. *)
Theorem phone_getter_formats (self : Person.t) (num : string) :
  Person._phone self = Some num ->
  String.length num = 10 ->
  exists a b c : string,
    num = a ++ b ++ c /\
    String.length a = 3 /\ String.length b = 3 /\ String.length c = 4 /\
    Person.phone self = (Py.Return (a ++ "-" ++ b ++ "-" ++ c), self).
Proof.
  intros Hnum Hlen.
  destruct (length_10_inv num Hlen)
    as (a & b & c & Hsplit & Ha & Hb & Hc & Sa & Sb & Sc).
  exists a, b, c. repeat split; try assumption.
  rewrite phone_spec, Hnum, Sa, Sb, Sc. reflexivity.
Qed.

Lemma phone_getter_formats_witness :
  exists a b c : string,
    "5552439988" = a ++ b ++ c /\
    String.length a = 3 /\ String.length b = 3 /\ String.length c = 4 /\
    Person.phone
      (Person.set__phone "5552439988" (Person.new "Sue" "Johson" None)) =
    (Py.Return (a ++ "-" ++ b ++ "-" ++ c),
     Person.set__phone "5552439988" (Person.new "Sue" "Johson" None)).
Proof.
  exact (phone_getter_formats
    (Person.set__phone "5552439988" (Person.new "Sue" "Johson" None))
    "5552439988" eq_refl eq_refl).
Defined.

(** The display string of a canonical value, by position. *)
Lemma phone_getter_display (self : Person.t) (num : string) :
  Person._phone self = Some num ->
  fst (Person.phone self) =
    Py.Return (Py.slice num 0 3 ++ "-" ++ Py.slice num 3 6 ++ "-"
               ++ Py.slice num 6 10).
Proof. intros H. now rewrite phone_spec, H. Qed.

(** A punctuated form of [d] is accepted exactly when [d] has ten characters,
    and then [d] is what gets stored. *)
Lemma phone_setter_punctuated (d x : string) (self : Person.t) :
  punctuated d x ->
  Person.phone_setter x self =
    if Nat.eqb (String.length d) 10
    then (Py.Return tt, Person.set__phone d self)
    else (Py.Raise (Py.Exception "Phone number not 10 digits long"), self).
Proof.
  intros H. rewrite phone_setter_spec.
  now rewrite (punctuated_strip d x H).
Qed.

(** What a read returns after an accepted write. *)
Lemma phone_set_then_get (d x : string) (self : Person.t) :
  punctuated d x -> String.length d = 10 ->
  Person._phone (snd (Person.phone_setter x self)) = Some d /\
  fst (Person.phone (snd (Person.phone_setter x self))) =
    Py.Return (Py.slice d 0 3 ++ "-" ++ Py.slice d 3 6 ++ "-"
               ++ Py.slice d 6 10).
Proof.
  intros Hx Hlen. rewrite (phone_setter_punctuated d x self Hx), Hlen.
  cbn [Nat.eqb snd]. split; [reflexivity|].
  now apply phone_getter_display.
Qed.

(** C4. Two arguments that carry the same sequence of non-separator
    characters and differ only in the hyphens and spaces put between them,
    when the setter accepts both, leave the same stored value, namely that
    sequence, and the getter then returns the same display string for both.
    In particular "555-555-5555", "555 555 5555" and "5555555555" all store
    "5555555555" and display as "555-555-5555". *)
Theorem phone_round_trip :
  (forall (d x y : string) (p q : Person.t),
      punctuated d x -> punctuated d y ->
      fst (Person.phone_setter x p) = Py.Return tt ->
      fst (Person.phone_setter y q) = Py.Return tt ->
      Person._phone (snd (Person.phone_setter x p)) = Some d /\
      Person._phone (snd (Person.phone_setter y q)) = Some d /\
      fst (Person.phone (snd (Person.phone_setter x p))) =
        fst (Person.phone (snd (Person.phone_setter y q))) /\
      exists display,
        fst (Person.phone (snd (Person.phone_setter x p))) =
          Py.Return display) /\
  (forall (p : Person.t) (x : string),
      In x ["555-555-5555"; "555 555 5555"; "5555555555"] ->
      Person._phone (snd (Person.phone_setter x p)) = Some "5555555555" /\
      fst (Person.phone (snd (Person.phone_setter x p))) =
        Py.Return "555-555-5555").
Proof.
  split.
  - intros d x y p q Hx Hy Ax Ay.
    assert (Hlen : String.length d = 10).
    { rewrite (phone_setter_punctuated d x p Hx) in Ax.
      destruct (Nat.eqb (String.length d) 10) eqn:E; [|discriminate Ax].
      now apply Nat.eqb_eq. }
    destruct (phone_set_then_get d x p Hx Hlen) as [Sx Gx].
    destruct (phone_set_then_get d y q Hy Hlen) as [Sy Gy].
    rewrite Sx, Sy, Gx, Gy. repeat split. eexists. reflexivity.
  - intros p x Hx.
    assert (P : punctuated "5555555555" x).
    { simpl in Hx. destruct Hx as [<-|[<-|[<-|[]]]];
        match goal with
        | |- punctuated _ ?s => exact (punctuated_by_strip s)
        end. }
    exact (phone_set_then_get "5555555555" x p P eq_refl).
Qed.

Lemma phone_round_trip_witness :
  Person._phone
    (snd (Person.phone_setter "555-243 9988" (Person.new "Sue" "Johson" None)))
  = Some "5552439988" /\
  Person._phone
    (snd (Person.phone_setter "55 52 43-99-88" (Person.new "Tom" "Smith" None)))
  = Some "5552439988" /\
  fst (Person.phone
    (snd (Person.phone_setter "555-243 9988" (Person.new "Sue" "Johson" None))))
  = fst (Person.phone
    (snd (Person.phone_setter "55 52 43-99-88"
            (Person.new "Tom" "Smith" None)))).
Proof.
  pose proof (proj1 phone_round_trip
    "5552439988" "555-243 9988" "55 52 43-99-88"
    (Person.new "Sue" "Johson" None) (Person.new "Tom" "Smith" None)
    (eq_ind _ (fun d => punctuated d _)
       (punctuated_by_strip "555-243 9988") _ eq_refl)
    (eq_ind _ (fun d => punctuated d _)
       (punctuated_by_strip "55 52 43-99-88") _ eq_refl)
    eq_refl eq_refl) as (H1 & H2 & H3 & _).
  exact (conj H1 (conj H2 H3)).
Defined.

(** Reading the phone writes nothing. *)
Lemma phone_reads_only (self : Person.t) : snd (Person.phone self) = self.
Proof. rewrite phone_spec. now destruct (Person._phone self). Qed.

(** One call of the class keeps the invariant of the stored phone value. *)
Lemma after_phone_ok (c : Person.call) (self : Person.t) :
  phone_ok self = true -> phone_ok (Person.after c self) = true.
Proof.
  intros H. destruct c as [|value| | |pet]; unfold Person.after;
    try exact H.
  - now rewrite phone_reads_only.
  - rewrite phone_setter_spec.
    destruct (Nat.eqb (String.length (strip value)) 10) eqn:E; [|exact H].
    unfold phone_ok, canonical. simpl.
    now rewrite E, !occurs_strip.
Qed.

(** Only the setter writes [_phone]. *)
Lemma after_keeps_phone (c : Person.call) (self : Person.t) :
  is_setter c = false ->
  Person._phone (Person.after c self) = Person._phone self.
Proof.
  destruct c; unfold Person.after; intros H;
    try reflexivity; try discriminate H.
  now rewrite phone_reads_only.
Qed.

(** C5. The stored phone value, when present, has exactly ten characters and
    no hyphen or space.  It holds of a new Person, every call of the class
    keeps it, the setter is the only call that changes [_phone] at all, so
    it holds after any sequence of calls, whether they return or raise. *)
Theorem phone_invariant :
  (forall (self : Person.t) (cs : list Person.call),
      phone_ok self = true -> phone_ok (Person.after_all cs self) = true) /\
  (forall (first last : string) (age : option Z) (cs : list Person.call),
      phone_ok (Person.after_all cs (Person.new first last age)) = true) /\
  (forall (c : Person.call) (self : Person.t),
      is_setter c = false ->
      Person._phone (Person.after c self) = Person._phone self) /\
  (forall (self : Person.t) (number : string),
      phone_ok self = true -> Person._phone self = Some number ->
      String.length number = 10 /\
      occurs "-" number = false /\ occurs " " number = false).
Proof.
  assert (G : forall cs self,
             phone_ok self = true ->
             phone_ok (Person.after_all cs self) = true).
  { unfold Person.after_all.
    induction cs as [|c cs IH]; intros self H; simpl; [exact H|].
    apply IH, after_phone_ok, H. }
  repeat split.
  - intros self cs. apply G.
  - intros first last age cs. now apply G.
  - apply after_keeps_phone.
  - unfold phone_ok, canonical in H. rewrite H0 in H.
    apply andb_prop in H as [H _]. apply andb_prop in H as [H _].
    now apply Nat.eqb_eq.
  - unfold phone_ok, canonical in H. rewrite H0 in H.
    apply andb_prop in H as [H _]. apply andb_prop in H as [_ H].
    now apply negb_true_iff in H.
  - unfold phone_ok, canonical in H. rewrite H0 in H.
    apply andb_prop in H as [_ H]. now apply negb_true_iff in H.
Qed.

Lemma phone_invariant_witness :
  phone_ok
    (Person.after_all
       [Person.SetPhone "555-555-5555"; Person.SetPhone "12345";
        Person.GetPhone; Person.SetPhone "555 243 9988"]
       (Person.new "Tom" "Smith" (Some 52%Z))) = true.
Proof.
  exact (proj1 phone_invariant (Person.new "Tom" "Smith" (Some 52%Z))
    [Person.SetPhone "555-555-5555"; Person.SetPhone "12345";
     Person.GetPhone; Person.SetPhone "555 243 9988"] eq_refl).
Defined.

(** C6. The full name of a Person is the first name, one space, and the
    last name; for "Tom" and "Smith" it is exactly "Tom Smith". *)
Theorem full_name_concatenates :
  (forall self : Person.t,
      Person.full_name self =
        Person.first_name self ++ " " ++ Person.last_name self /\
      String.length (Person.full_name self) =
        String.length (Person.first_name self) + 1
        + String.length (Person.last_name self)) /\
  (forall (age : option Z),
      Person.full_name (Person.new "Tom" "Smith" age) = "Tom Smith").
Proof.
  split; [|reflexivity].
  intros self. split; [reflexivity|].
  unfold Person.full_name.
  rewrite !length_app. simpl. lia.
Qed.

(** C10. On a Person whose stored phone value is absent, the phone getter
    raises: it slices [None], which is a [TypeError], and the instance is
    left as it was. *)
Theorem phone_getter_raises_when_absent (self : Person.t) :
  Person._phone self = None ->
  Person.phone self =
    (Py.Raise Py.none_getitem, self).
Proof. intros H. now rewrite phone_spec, H. Qed.

Lemma phone_getter_raises_when_absent_witness :
  Person.phone (Person.new "Tom" "Smith" (Some 52%Z)) =
    (Py.Raise Py.none_getitem,
     Person.new "Tom" "Smith" (Some 52%Z)).
Proof.
  exact (phone_getter_raises_when_absent
           (Person.new "Tom" "Smith" (Some 52%Z)) eq_refl).
Defined.

(** ** The derived pets accessors *)

(** No attribute of a Person instance is called [pet_assocs]. *)
Lemma getattr_pet_assocs (self : Person.t) :
  Person.getattr_collection "pet_assocs" self =
    (Py.Raise (Py.AttributeError "pet_assocs"), self).
Proof. reflexivity. Qed.

Lemma getattr_pet_associations (self : Person.t) :
  Person.getattr_collection "pet_associations" self =
    (Py.Return (Person.pet_associations self), self).
Proof. reflexivity. Qed.

(** The comprehension of [pets] yields one pet per association row. *)
Lemma pets_of_length (assocs : list PetPersonAssociation.t) :
  List.length (Person.pets_of assocs) = List.length assocs.
Proof. apply length_map. Qed.

(** The loop of [has_pet] finds the first row of the pet, if any. *)
Lemma has_pet_loop_found (l1 l2 : list PetPersonAssociation.t)
      (a : PetPersonAssociation.t) (pet : Pet.t) :
  Forall (fun b => Pet.eq (PetPersonAssociation.pet b) pet = false) l1 ->
  Pet.eq (PetPersonAssociation.pet a) pet = true ->
  Person.has_pet_loop (l1 ++ a :: l2)%list pet = PetPersonAssociation.years a.
Proof.
  intros H Ha. induction H as [|b l1 Hb _ IH]; simpl.
  - now rewrite Ha.
  - now rewrite Hb.
Qed.

Lemma has_pet_loop_absent (assocs : list PetPersonAssociation.t) (pet : Pet.t) :
  Forall (fun b => Pet.eq (PetPersonAssociation.pet b) pet = false) assocs ->
  Person.has_pet_loop assocs pet = None.
Proof.
  induction 1 as [|b l Hb _ IH]; simpl; [reflexivity|now rewrite Hb].
Qed.

(** The property body of lines 170-172 reads [self.pet_assocs] and would
    raise; [self.pets] does not run it. *)
Lemma pets_property_raises (self : Person.t) :
  Person.pets_property self =
    (Py.Raise (Py.AttributeError "pet_assocs"), self).
Proof. reflexivity. Qed.



(** C9. [has_pet] reads [self.pet_assocs] too, so it raises
    [AttributeError] for every Person and pet, whether or not a row links
    them; for Tom and Spot the claimed result is 3, for Tom and Goldie
    [None]. *)
Theorem has_pet_raises_attribute_error :
  (forall (self : Person.t) (pet : Pet.t),
      Person.has_pet pet self =
        (Py.Raise (Py.AttributeError "pet_assocs"), self)) /\
  Person.has_pet spot tom = (Py.Raise (Py.AttributeError "pet_assocs"), tom) /\
  Person.has_pet goldie tom =
    (Py.Raise (Py.AttributeError "pet_assocs"), tom) /\
  Person.has_pet_loop (Person.pet_associations tom) spot = Some 3%Z /\
  Person.has_pet_loop (Person.pet_associations tom) goldie = None.
Proof. repeat split. Qed.

(** ** The uniqueness constraint of [pet_person_association] *)

Section Association.

Local Abbreviation ppa := Engine.pet_person_association.

Lemma autoincrement_ppa (stored : list Engine.row) (r : Engine.row) :
  Engine.autoincrement ppa stored r =
    if Engine.is_null (Engine.cell r "id")
    then ("id", Some (Engine.next_value "id" stored)) :: r
    else r.
Proof. reflexivity. Qed.

(** Assigning the key leaves the referenced pair alone. *)
Lemma pair_of_autoincrement (stored : list Engine.row) (r : Engine.row) :
  Engine.pair_of (Engine.autoincrement ppa stored r) = Engine.pair_of r.
Proof.
  rewrite autoincrement_ppa.
  now destruct (Engine.is_null (Engine.cell r "id")).
Qed.

Lemma not_null_pair_full (r : Engine.row) :
  Engine.not_null_ok ppa r = true -> pair_full r.
Proof.
  unfold Engine.not_null_ok, pair_full. simpl.
  destruct (Engine.cell r "pet_id"), (Engine.cell r "person_id");
    simpl; rewrite ?andb_false_r; intros H;
    try discriminate H; split; discriminate.
Qed.

(** Two rows that reference the same pair collide on the constraint. *)
Lemma collide_same_pair (r r' : Engine.row) :
  pair_full r -> Engine.pair_of r = Engine.pair_of r' ->
  Engine.collide ["pet_id"; "person_id"] r r' = true.
Proof.
  unfold pair_full, Engine.pair_of. intros [Hp Hq] E.
  injection E as E1 E2. simpl. rewrite <- E1, <- E2.
  destruct (Engine.cell r "pet_id") as [a|]; [|contradiction].
  destruct (Engine.cell r "person_id") as [b|]; [|contradiction].
  now rewrite !Z.eqb_refl.
Qed.

(** What a successful INSERT has checked and stored. *)
Lemma insert_return (stored stored' : list Engine.row) (r : Engine.row) :
  Engine.insert ppa stored r = Py.Return stored' ->
  exists r', stored' = (stored ++ [r'])%list /\
             Engine.pair_of r' = Engine.pair_of r /\
             pair_full r' /\
             ~ In (Engine.pair_of r') (map Engine.pair_of stored).
Proof.
  unfold Engine.insert.
  set (r' := Engine.autoincrement ppa stored r).
  destruct (Engine.not_null_ok ppa r') eqn:Hnn; cbn [negb];
    [|discriminate].
  destruct (find (Engine.violated stored r') (Engine.unique_checks ppa))
    eqn:Hfind; [discriminate|].
  intros H. injection H as <-.
  exists r'. pose proof (not_null_pair_full r' Hnn) as Hfull.
  repeat split; try apply Hfull.
  - apply pair_of_autoincrement.
  - intros Hin. apply in_map_iff in Hin as (r0 & E & Hin).
    pose proof (find_none _ _ Hfind
      (Engine.mkUnique ["pet_id"; "person_id"]
         "person_pet_uniqueness_constraint")
      (or_intror (or_introl eq_refl))) as Hv.
    unfold Engine.violated in Hv. cbn [Engine.ucolumns] in Hv.
    assert (Hex : existsb (Engine.collide ["pet_id"; "person_id"] r') stored
                  = true).
    { apply existsb_exists. exists r0. split; [exact Hin|].
      now apply collide_same_pair. }
    congruence.
Qed.

Lemma insert_keeps_unique (stored stored' : list Engine.row) (r : Engine.row) :
  pairs_unique stored ->
  Engine.insert ppa stored r = Py.Return stored' ->
  pairs_unique stored' /\
  map Engine.pair_of stored' =
    (map Engine.pair_of stored ++ [Engine.pair_of r])%list.
Proof.
  intros [Hnd Hfull] H.
  apply insert_return in H as (r' & -> & Hp & Hf & Hnew).
  rewrite map_app. simpl. rewrite <- Hp. split; [|reflexivity].
  split.
  - rewrite map_app. simpl. apply NoDup_app. repeat split.
    + exact Hnd.
    + constructor; [intros []|constructor].
    + intros a Ha [<-|[]]. contradiction.
  - apply Forall_app. split; [exact Hfull|]. now constructor.
Qed.

Lemma insert_all_keeps_unique (rs stored stored' : list Engine.row) :
  pairs_unique stored ->
  Engine.insert_all ppa stored rs = Py.Return stored' ->
  pairs_unique stored' /\
  map Engine.pair_of stored' =
    (map Engine.pair_of stored ++ map Engine.pair_of rs)%list.
Proof.
  revert stored. induction rs as [|r rs IH]; intros stored Hu H; simpl in *.
  - injection H as <-. now rewrite app_nil_r.
  - destruct (Engine.insert ppa stored r) as [mid|e] eqn:Hi; [|discriminate].
    destruct (insert_keeps_unique _ _ _ Hu Hi) as [Hu' Hm].
    destruct (IH mid Hu' H) as [Hu'' Hm'].
    split; [exact Hu''|].
    now rewrite Hm', Hm, <- app_assoc.
Qed.

(** The engine reports failures as integrity errors only. *)
Lemma insert_raise (stored : list Engine.row) (r : Engine.row) (e : Py.exn) :
  Engine.insert ppa stored r = Py.Raise e ->
  exists c, e = Py.IntegrityError c.
Proof.
  unfold Engine.insert.
  destruct (negb _); [intros H; injection H as <-; eauto|].
  destruct (find _ _); [intros H; injection H as <-; eauto|discriminate].
Qed.

Lemma insert_all_raise (rs stored : list Engine.row) (e : Py.exn) :
  Engine.insert_all ppa stored rs = Py.Raise e ->
  exists c, e = Py.IntegrityError c.
Proof.
  revert stored. induction rs as [|r rs IH]; intros stored H; simpl in H.
  - discriminate.
  - destruct (Engine.insert ppa stored r) as [mid|e'] eqn:Hi.
    + eauto.
    + injection H as <-. eapply insert_raise, Hi.
Qed.

Lemma step_keeps_unique (a : Engine.action) (s : Engine.Session) :
  pairs_unique (Engine.committed s) ->
  pairs_unique (Engine.committed (Engine.step ppa a s)).
Proof.
  intros Hu. destruct a as [rs|]; simpl; [exact Hu|].
  unfold Engine.commit.
  destruct (Engine.insert_all ppa (Engine.committed s) (Engine.pending s))
    as [stored'|e] eqn:Hi; simpl; [|exact Hu].
  eapply insert_all_keeps_unique; eassumption.
Qed.

Lemma run_keeps_unique (acts : list Engine.action) (s : Engine.Session) :
  pairs_unique (Engine.committed s) ->
  pairs_unique (Engine.committed (Engine.run ppa acts s)).
Proof.
  unfold Engine.run. revert s.
  induction acts as [|a acts IH]; intros s Hu; simpl; [exact Hu|].
  apply IH, step_keeps_unique, Hu.
Qed.

(** A unit of work that would leave two rows with one pair is refused. *)
Lemma commit_refuses_duplicates (s : Engine.Session) :
  pairs_unique (Engine.committed s) ->
  ~ NoDup (map Engine.pair_of (Engine.committed s ++ Engine.pending s)) ->
  exists c,
    Engine.commit ppa s =
      (Py.Raise (Py.IntegrityError c),
       {| Engine.committed := Engine.committed s; Engine.pending := [] |}).
Proof.
  intros Hu Hdup. unfold Engine.commit.
  destruct (Engine.insert_all ppa (Engine.committed s) (Engine.pending s))
    as [stored'|e] eqn:Hi.
  - exfalso. apply Hdup.
    destruct (insert_all_keeps_unique _ _ _ Hu Hi) as [[Hnd _] Hm].
    now rewrite map_app, <- Hm.
  - destruct (insert_all_raise _ _ _ Hi) as [c ->]. now exists c.
Qed.

Lemma NoDup_map_split {A B} (f : A -> B) (l1 l2 l3 : list A) (a b : A) :
  NoDup (map f (l1 ++ a :: l2 ++ b :: l3)) -> f a <> f b.
Proof.
  rewrite map_app. simpl. intros H E.
  apply NoDup_remove_2 in H. apply H.
  apply in_or_app. right. rewrite map_app. apply in_or_app. right.
  left. now symmetry.
Qed.

(** C7. In every state reached from the empty table by adding rows and
    committing, each stored association row references a pet and a person
    and no two stored rows reference the same (pet, person) pair; and a
    commit that would leave two rows with one pair, the second row being
    already stored or pending, raises an integrity error and stores
    nothing of the unit of work. *)
Theorem association_pairs_unique :
  (forall acts : list Engine.action,
      pairs_unique (Engine.committed (Engine.run ppa acts Engine.empty))) /\
  (forall (acts : list Engine.action) (l1 l2 l3 : list Engine.row)
          (r1 r2 : Engine.row),
      Engine.committed (Engine.run ppa acts Engine.empty) =
        (l1 ++ r1 :: l2 ++ r2 :: l3)%list ->
      Engine.pair_of r1 <> Engine.pair_of r2) /\
  (forall (s : Engine.Session) (l1 l2 l3 : list Engine.row)
          (r1 r2 : Engine.row),
      pairs_unique (Engine.committed s) ->
      (Engine.committed s ++ Engine.pending s)%list =
        (l1 ++ r1 :: l2 ++ r2 :: l3)%list ->
      Engine.pair_of r1 = Engine.pair_of r2 ->
      exists c,
        Engine.commit ppa s =
          (Py.Raise (Py.IntegrityError c),
           {| Engine.committed := Engine.committed s;
              Engine.pending := [] |})).
Proof.
  assert (R : forall acts,
             pairs_unique
               (Engine.committed (Engine.run ppa acts Engine.empty))).
  { intros acts. apply run_keeps_unique. split; constructor. }
  repeat split; try apply R.
  - intros acts l1 l2 l3 r1 r2 E.
    destruct (R acts) as [Hnd _]. rewrite E in Hnd.
    eapply NoDup_map_split, Hnd.
  - intros s l1 l2 l3 r1 r2 Hu E Hp.
    apply commit_refuses_duplicates; [exact Hu|].
    rewrite E. intros Hnd.
    exact (NoDup_map_split _ _ _ _ _ _ Hnd Hp).
Qed.

Lemma association_pairs_unique_witness :
  exists c,
    Engine.commit ppa
      {| Engine.committed := [Engine.to_row tom_spot];
         Engine.pending := [Engine.to_row tom_spot_again] |} =
      (Py.Raise (Py.IntegrityError c),
       {| Engine.committed := [Engine.to_row tom_spot];
          Engine.pending := [] |}).
Proof.
  refine (proj2 (proj2 association_pairs_unique)
    {| Engine.committed := [Engine.to_row tom_spot];
       Engine.pending := [Engine.to_row tom_spot_again] |}
    [] [] [] (Engine.to_row tom_spot) (Engine.to_row tom_spot_again)
    _ eq_refl eq_refl).
  split.
  - constructor; [intros []|constructor].
  - constructor; [|constructor]. split; discriminate.
Defined.

(** The constraint that refuses the second row is the declared one. *)
Example second_association_refused :
  Engine.run ppa
    [Engine.AddAll [Engine.to_row tom_spot_again]; Engine.Commit]
    Engine.empty =
    {| Engine.committed :=
         [("id", Some 1%Z) :: Engine.to_row tom_spot_again];
       Engine.pending := [] |} /\
  Engine.commit ppa
    {| Engine.committed := [Engine.to_row tom_spot];
       Engine.pending := [Engine.to_row tom_spot_again] |} =
    (Py.Raise (Py.IntegrityError "person_pet_uniqueness_constraint"),
     {| Engine.committed := [Engine.to_row tom_spot];
        Engine.pending := [] |}).
Proof. split; reflexivity. Qed.

End Association.

(** ** Further properties of the phone property *)

Lemma strip_app (x y : string) : strip (x ++ y) = strip x ++ strip y.
Proof.
  induction x as [|a x IH]; simpl; [reflexivity|].
  destruct (is_separator a); simpl; now rewrite IH.
Qed.

Lemma occurs_strip_iff (c : ascii) (s : string) :
  occurs c (strip s) = occurs c s && negb (is_separator c).
Proof.
  induction s as [|a s IH]; simpl; [reflexivity|].
  destruct (Ascii.eqb a c) eqn:E.
  - apply Ascii.eqb_eq in E. subst a.
    destruct (is_separator c) eqn:Hc; simpl.
    + now rewrite IH, andb_false_r.
    + now rewrite Ascii.eqb_refl.
  - destruct (is_separator a); simpl; [|rewrite E]; exact IH.
Qed.

Lemma canonical_inv (d : string) :
  canonical d = true ->
  String.length d = 10 /\ occurs "-" d = false /\ occurs " " d = false.
Proof.
  unfold canonical. intros H.
  apply andb_prop in H as [H H3]. apply andb_prop in H as [H1 H2].
  apply Nat.eqb_eq in H1. apply negb_true_iff in H2, H3. auto.
Qed.

Lemma set__phone_same (self : Person.t) (d : string) :
  Person._phone self = Some d -> Person.set__phone d self = self.
Proof. destruct self; simpl. now intros ->. Qed.

Lemma set__phone_twice (self : Person.t) (a b : string) :
  Person.set__phone b (Person.set__phone a self) = Person.set__phone b self.
Proof. reflexivity. Qed.

(** The display of a canonical value, and what the setter makes of it. *)
Lemma phone_canonical_display (self : Person.t) (d : string) :
  Person._phone self = Some d -> canonical d = true ->
  exists display,
    Person.phone self = (Py.Return display, self) /\
    String.length display = 12 /\
    strip display = d /\
    Person.phone_setter display self = (Py.Return tt, self).
Proof.
  intros Hd Hc. apply canonical_inv in Hc as (Hlen & Hh & Hs).
  destruct (length_10_inv d Hlen)
    as (a & b & c & Hsplit & Ha & Hb & Hc & Sa & Sb & Sc).
  exists (a ++ "-" ++ b ++ "-" ++ c).
  assert (St : strip (a ++ "-" ++ b ++ "-" ++ c) = d).
  { transitivity (strip d); [|now apply strip_fixed].
    rewrite Hsplit. now rewrite !strip_app. }
  repeat split.
  - rewrite phone_spec, Hd, Sa, Sb, Sc. reflexivity.
  - rewrite !length_app, Ha, Hb, Hc. reflexivity.
  - exact St.
  - rewrite phone_setter_spec, St, Hlen. cbn [Nat.eqb].
    now rewrite set__phone_same.
Qed.

(** X1. On a Person whose stored phone value is canonical, the getter
    returns a string of twelve characters that the setter accepts, and
    writing it back leaves the Person exactly as it was. *)
Theorem phone_write_back (self : Person.t) (d : string) :
  Person._phone self = Some d -> canonical d = true ->
  exists display,
    Person.phone self = (Py.Return display, self) /\
    String.length display = 12 /\
    strip display = d /\
    Person.phone_setter display self = (Py.Return tt, self).
Proof. apply phone_canonical_display. Qed.

Lemma phone_write_back_witness :
  exists display,
    Person.phone tom = (Py.Return display, tom) /\
    String.length display = 12 /\
    strip display = "5555555555" /\
    Person.phone_setter display tom = (Py.Return tt, tom).
Proof. exact (phone_write_back tom "5555555555" eq_refl eq_refl). Defined.

(** X2. Whatever string is stored, the getter returns: it reads at most the
    first ten characters, so the display has two characters more than the
    stored value up to a total of twelve, and a stored value cut to its
    first ten characters displays the same. *)
Theorem phone_getter_reads_ten (self other : Person.t) (num : string) :
  Person._phone self = Some num ->
  Person._phone other = Some (Py.take 10 num) ->
  exists display,
    Person.phone self = (Py.Return display, self) /\
    String.length display = Nat.min (String.length num) 10 + 2 /\
    Person.phone other = (Py.Return display, other).
Proof.
  intros Hs Ho. rewrite !phone_spec, Hs, Ho.
  eexists. split; [reflexivity|].
  do 10 (destruct num as [|? num]; [split; reflexivity|]).
  split; [|reflexivity].
  cbn [Py.slice Py.take Py.drop Nat.sub String.length append].
  lia.
Qed.

Lemma phone_getter_reads_ten_witness :
  exists display,
    Person.phone (Person.set__phone "12345" tom) =
      (Py.Return display, Person.set__phone "12345" tom) /\
    String.length display = Nat.min (String.length "12345") 10 + 2 /\
    Person.phone (Person.set__phone "12345" tom) =
      (Py.Return display, Person.set__phone "12345" tom).
Proof.
  exact (phone_getter_reads_ten
           (Person.set__phone "12345" tom) (Person.set__phone "12345" tom)
           "12345" eq_refl eq_refl).
Defined.

(** X3. Of two writes in a row the last accepted one decides: if the second
    argument is accepted the Person ends as if only it had been written,
    otherwise as the first write left it. *)
Theorem phone_setter_twice (self : Person.t) (x y : string) :
  snd (Person.phone_setter y (snd (Person.phone_setter x self))) =
    if Nat.eqb (Py.len (stripped y)) 10
    then snd (Person.phone_setter y self)
    else snd (Person.phone_setter x self).
Proof.
  rewrite !(phone_setter_spec y), stripped_strip. unfold Py.len.
  destruct (Nat.eqb (String.length (strip y)) 10); [|reflexivity].
  rewrite phone_setter_spec.
  destruct (Nat.eqb (String.length (strip x)) 10); reflexivity.
Qed.

(** X4. After an accepted write, a character occurs in the stored number
    exactly when it occurs in the argument and is neither a hyphen nor a
    space: nothing else is dropped and nothing is added. *)
Theorem phone_setter_keeps_other_characters
        (self : Person.t) (value : string) (c : ascii) :
  Py.len (stripped value) = 10 ->
  exists number,
    Person._phone (snd (Person.phone_setter value self)) = Some number /\
    occurs c number = occurs c value && negb (is_separator c).
Proof.
  intros Hlen. exists (strip value).
  rewrite stripped_strip in Hlen. unfold Py.len in Hlen.
  rewrite phone_setter_spec, Hlen. split; [reflexivity|].
  apply occurs_strip_iff.
Qed.

Lemma phone_setter_keeps_other_characters_witness :
  exists number,
    Person._phone (snd (Person.phone_setter "555-243 99x8" tom))
      = Some number /\
    occurs "x" number = occurs "x" "555-243 99x8" && negb (is_separator "x").
Proof.
  exact (phone_setter_keeps_other_characters tom "555-243 99x8" "x" eq_refl).
Defined.

(** X5. Building a Person with a phone argument of ten characters besides
    hyphens and spaces gives a Person that satisfies the phone invariant,
    has the given first name, last name and age, and whose phone reads back
    as twelve characters that strip to the same number as the argument;
    with any other argument the construction raises and no Person
    results. *)
Theorem person_create_reads_back :
  (forall (first last : string) (age : option Z) (value : string),
      String.length (strip value) = 10 ->
      exists p display,
        Person.create first last age value = Py.Return p /\
        phone_ok p = true /\
        Person.first_name p = first /\
        Person.last_name p = last /\
        Person.age p = age /\
        Person.full_name p = first ++ " " ++ last /\
        Person.phone p = (Py.Return display, p) /\
        String.length display = 12 /\
        strip display = strip value) /\
  (forall (first last : string) (age : option Z) (value : string),
      String.length (strip value) <> 10 ->
      Person.create first last age value =
        Py.Raise (Py.Exception "Phone number not 10 digits long")).
Proof.
  split; intros first last age value Hlen; unfold Person.create;
    rewrite phone_setter_spec.
  - rewrite Hlen. cbn [Nat.eqb].
    set (p := Person.set__phone (strip value) (Person.new first last age)).
    assert (Hc : canonical (strip value) = true).
    { unfold canonical. now rewrite Hlen, !occurs_strip. }
    destruct (phone_canonical_display p (strip value) eq_refl Hc)
      as (display & Hget & Hl & Hst & _).
    exists p, display. repeat split; try assumption.
  - destruct (Nat.eqb (String.length (strip value)) 10) eqn:E;
      [apply Nat.eqb_eq in E; contradiction|reflexivity].
Qed.

Lemma person_create_reads_back_witness :
  exists p display,
    Person.create "Sue" "Johson" (Some 54%Z) "555 243 9988" = Py.Return p /\
    phone_ok p = true /\
    Person.first_name p = "Sue" /\
    Person.last_name p = "Johson" /\
    Person.age p = Some 54%Z /\
    Person.full_name p = "Sue" ++ " " ++ "Johson" /\
    Person.phone p = (Py.Return display, p) /\
    String.length display = 12 /\
    strip display = strip "555 243 9988".
Proof.
  exact (proj1 person_create_reads_back
           "Sue" "Johson" (Some 54%Z) "555 243 9988" eq_refl).
Defined.

(** ** Names and their printed forms *)

Lemma append_assoc (x y z : string) : (x ++ y) ++ z = x ++ y ++ z.
Proof. induction x as [|a x IH]; simpl; [reflexivity|now rewrite IH]. Qed.

Lemma append_empty_r (x : string) : x ++ "" = x.
Proof. induction x as [|a x IH]; simpl; [reflexivity|now rewrite IH]. Qed.

Lemma append_inv_head (x y z : string) : x ++ y = x ++ z -> y = z.
Proof.
  induction x as [|a x IH]; simpl; intros H; [exact H|].
  injection H as H. now apply IH.
Qed.

(** A string is cut in one way only at its first space. *)
Lemma split_at_first_space (a a' b b' : string) :
  occurs " " a = false -> occurs " " a' = false ->
  a ++ " " ++ b = a' ++ " " ++ b' -> a = a' /\ b = b'.
Proof.
  revert a'. induction a as [|x a IH]; intros [|x' a'] Ha Ha' E;
    simpl in *.
  - injection E as E. now split.
  - injection E as Ex _. subst x'. discriminate Ha'.
  - injection E as Ex _. subst x. discriminate Ha.
  - injection E as Ex E. subst x'.
    apply orb_false_elim in Ha as [_ Ha].
    apply orb_false_elim in Ha' as [_ Ha'].
    destruct (IH a' Ha Ha' E) as [-> ->]. now split.
Qed.

(** X6. The full name does not record where the first name ends: a Person
    whose last name is "b c" and one whose first name is "a b" have the same
    full name, though their first names differ. *)
Theorem full_name_ambiguous (a b c : string) (age1 age2 : option Z) :
  Person.full_name (Person.new a (b ++ " " ++ c) age1) =
    Person.full_name (Person.new (a ++ " " ++ b) c age2) /\
  Person.first_name (Person.new a (b ++ " " ++ c) age1) <>
    Person.first_name (Person.new (a ++ " " ++ b) c age2).
Proof.
  split.
  - unfold Person.full_name.
    cbn [Person.first_name Person.last_name Person.new].
    now rewrite append_assoc.
  - cbn [Person.first_name Person.new]. intros E.
    apply (f_equal String.length) in E.
    rewrite length_app in E. simpl in E. lia.
Qed.

(** X7. When no first name contains a space, the full name determines both
    names: two such Persons with equal full names have equal first names
    and equal last names. *)
Theorem full_name_determines_names (p q : Person.t) :
  occurs " " (Person.first_name p) = false ->
  occurs " " (Person.first_name q) = false ->
  Person.full_name p = Person.full_name q ->
  Person.first_name p = Person.first_name q /\
  Person.last_name p = Person.last_name q.
Proof. unfold Person.full_name. apply split_at_first_space. Qed.

Lemma full_name_determines_names_witness :
  Person.first_name tom = Person.first_name (Person.new "Tom" "Smith" None) /\
  Person.last_name tom = Person.last_name (Person.new "Tom" "Smith" None).
Proof.
  exact (full_name_determines_names tom (Person.new "Tom" "Smith" None)
           eq_refl eq_refl eq_refl).
Defined.

Lemma append_inv_space (x y : string) : x ++ " " = y ++ " " -> x = y.
Proof.
  revert y. induction x as [|a x IH]; intros [|b y] E; simpl in E.
  - reflexivity.
  - injection E as _ E. destruct y; discriminate E.
  - injection E as _ E. destruct x; discriminate E.
  - injection E as -> E. now rewrite (IH y E).
Qed.

Lemma person_repr_spec (self : Person.t) :
  Person.__repr__ self =
    PyFormat.Ok ("Person: " ++ Person.full_name self ++ " ").
Proof. reflexivity. Qed.

(** X8. A Person whose first and last names are set prints as
    "Person: <full name> ", with a trailing space, whatever characters the
    names hold; two such Persons print the same exactly when their full
    names are equal. *)
Theorem person_repr_determines_full_name (p q : Person.t) :
  Person.__repr__ p =
    PyFormat.Ok ("Person: " ++ Person.full_name p ++ " ") /\
  (Person.__repr__ p = Person.__repr__ q <->
   Person.full_name p = Person.full_name q).
Proof.
  rewrite !person_repr_spec. split; [reflexivity|].
  split; intros H.
  - injection H as H. now apply append_inv_space.
  - now rewrite H.
Qed.

Lemma person_repr_determines_full_name_witness :
  Person.full_name tom = Person.full_name (Person.new "Tom" "Smith" None).
Proof.
  exact (proj1 (proj2 (person_repr_determines_full_name
                         tom (Person.new "Tom" "Smith" None))) eq_refl).
Defined.

(** X9. A breed prints as "<name>: <species name>", the species through its
    own [__repr__]; the printed form does not tell where the breed name
    ends, so a breed "a: b" of species "c" and a breed "a" of species "b: c"
    print the same. *)
Theorem breed_repr_ambiguous :
  (forall b : Breed.t,
      Breed.__repr__ b =
        PyFormat.Ok (Breed.name b ++ ": " ++ Species.name (Breed.species b))) /\
  (forall (a b c : string) (i1 i2 j1 j2 k1 k2 : option Z),
      Breed.__repr__ (Breed.mk i1 (a ++ ": " ++ b) k1 (Species.mk j1 c)) =
      Breed.__repr__ (Breed.mk i2 a k2 (Species.mk j2 (b ++ ": " ++ c)))).
Proof.
  assert (F : forall b, Breed.__repr__ b =
    PyFormat.Ok (Breed.name b ++ ": " ++ Species.name (Breed.species b))).
  { intros b. unfold Breed.__repr__, PyFormat.format. simpl.
    now rewrite append_empty_r. }
  split; [exact F|].
  intros. rewrite !F. simpl. now rewrite append_assoc.
Qed.

(** X10. A nickname row always prints: its nickname when it has one, and
    the text "None" when the nickname is absent, so a row without nickname
    and a row nicknamed "None" print the same. *)
Theorem nickname_repr_none (n : PetNicknames.t) :
  PetNicknames.__repr__ n =
    PyFormat.Ok (match PetNicknames.nickname n with
                 | Some s => s
                 | None => "None"
                 end) /\
  (forall i1 i2 p1 p2 q1 q2 : option Z,
      PetNicknames.__repr__ (PetNicknames.mk i1 p1 q1 None) =
      PetNicknames.__repr__ (PetNicknames.mk i2 p2 q2 (Some "None"))).
Proof.
  split; [|reflexivity].
  unfold PetNicknames.__repr__, PyFormat.format, PyFormat.str_of. simpl.
  now rewrite append_empty_r.
Qed.

Lemma shelter_repr_spec (p : Shelter.t) :
  Shelter.__repr__ p =
    PyFormat.Ok ("Shelter: " ++ PyFormat.str_of (Shelter.name p)).
Proof.
  unfold Shelter.__repr__, PyFormat.format. simpl.
  now rewrite append_empty_r.
Qed.

Lemma trait_repr_spec (p : Trait.t) :
  Trait.__repr__ p = PyFormat.Ok (PyFormat.str_of (Trait.name p)).
Proof.
  unfold Trait.__repr__, PyFormat.format. simpl.
  now rewrite append_empty_r.
Qed.

(** X11. The printed forms of a shelter and of a trait determine the name
    among the objects whose name is set: two shelters, or two traits, with
    names that print the same have the same name.  An object without name
    is not told apart: it prints like one named "None". *)
Theorem repr_determines_name :
  (forall (p q : Shelter.t) (a b : string),
      Shelter.name p = Some a -> Shelter.name q = Some b ->
      Shelter.__repr__ p = Shelter.__repr__ q -> a = b) /\
  (forall (p q : Trait.t) (a b : string),
      Trait.name p = Some a -> Trait.name q = Some b ->
      Trait.__repr__ p = Trait.__repr__ q -> a = b) /\
  (forall (i j : option Z) (w v : option string),
      Shelter.__repr__ (Shelter.mk i None w) =
      Shelter.__repr__ (Shelter.mk j (Some "None") v)) /\
  (forall i j : option Z,
      Trait.__repr__ (Trait.mk i None) =
      Trait.__repr__ (Trait.mk j (Some "None"))).
Proof.
  repeat split.
  - intros p q a b Hp Hq. rewrite !shelter_repr_spec, Hp, Hq.
    intros H. now injection H.
  - intros p q a b Hp Hq. rewrite !trait_repr_spec, Hp, Hq.
    intros H. now injection H.
Qed.

Lemma repr_determines_name_witness :
  Shelter.__repr__ (Shelter.mk None (Some "Happy Animal Place") None) =
    Shelter.__repr__ (Shelter.mk (Some 1%Z) (Some "Happy Animal Place")
                                 (Some "http://example.org")) /\
  "Happy Animal Place" = "Happy Animal Place".
Proof.
  split; [reflexivity|].
  exact (proj1 repr_determines_name
           (Shelter.mk None (Some "Happy Animal Place") None)
           (Shelter.mk (Some 1%Z) (Some "Happy Animal Place")
                       (Some "http://example.org"))
           "Happy Animal Place" "Happy Animal Place"
           eq_refl eq_refl eq_refl).
Defined.

(** ** What the association table accepts and what it refuses *)

Section AssociationCommit.

Local Abbreviation ppa := Engine.pet_person_association.

Lemma cell_autoincrement (stored : list Engine.row) (r : Engine.row) :
  Engine.cell (Engine.autoincrement ppa stored r) "pet_id" =
    Engine.cell r "pet_id" /\
  Engine.cell (Engine.autoincrement ppa stored r) "person_id" =
    Engine.cell r "person_id".
Proof.
  pose proof (pair_of_autoincrement stored r) as E.
  unfold Engine.pair_of in E. injection E as E1 E2. now split.
Qed.

(** A row without pet or without person fails the NOT NULL check. *)
Lemma insert_null_pair (stored : list Engine.row) (r : Engine.row) :
  Engine.cell r "pet_id" = None \/ Engine.cell r "person_id" = None ->
  Engine.insert ppa stored r = Py.Raise (Py.IntegrityError "NOT NULL").
Proof.
  intros H. unfold Engine.insert.
  assert (N : Engine.not_null_ok ppa (Engine.autoincrement ppa stored r)
              = false).
  { destruct (cell_autoincrement stored r) as [E1 E2].
    unfold Engine.not_null_ok. simpl. rewrite E1, E2.
    destruct H as [-> | ->]; simpl; now rewrite ?andb_false_r. }
  now rewrite N.
Qed.

Lemma insert_all_null_pair (rs stored : list Engine.row) (r : Engine.row) :
  In r rs ->
  Engine.cell r "pet_id" = None \/ Engine.cell r "person_id" = None ->
  exists c, Engine.insert_all ppa stored rs = Py.Raise (Py.IntegrityError c).
Proof.
  intros Hin Hnull. revert stored.
  induction rs as [|r0 rs IH]; intros stored; [destruct Hin|].
  simpl. destruct (Engine.insert ppa stored r0) as [mid|e] eqn:Hi.
  - destruct Hin as [->|Hin].
    + rewrite (insert_null_pair stored r Hnull) in Hi. discriminate Hi.
    + now apply IH.
  - destruct (insert_raise _ _ _ Hi) as [c ->]. now exists c.
Qed.

(** X12. A unit of work that holds an association row without a pet or
    without a person cannot be committed: the commit raises an integrity
    error and nothing of the unit of work is stored. *)
Theorem association_requires_pet_and_person
        (s : Engine.Session) (r : Engine.row) :
  In r (Engine.pending s) ->
  Engine.cell r "pet_id" = None \/ Engine.cell r "person_id" = None ->
  exists c,
    Engine.commit ppa s =
      (Py.Raise (Py.IntegrityError c),
       {| Engine.committed := Engine.committed s; Engine.pending := [] |}).
Proof.
  intros Hin Hnull. unfold Engine.commit.
  destruct (insert_all_null_pair _ (Engine.committed s) r Hin Hnull)
    as [c ->].
  now exists c.
Qed.

Lemma association_requires_pet_and_person_witness :
  exists c,
    Engine.commit ppa
      {| Engine.committed := [Engine.to_row tom_spot];
         Engine.pending := [[("person_id", Some 2%Z); ("years", Some 1%Z)]] |}
    = (Py.Raise (Py.IntegrityError c),
       {| Engine.committed := [Engine.to_row tom_spot];
          Engine.pending := [] |}).
Proof.
  exact (association_requires_pet_and_person
    {| Engine.committed := [Engine.to_row tom_spot];
       Engine.pending := [[("person_id", Some 2%Z); ("years", Some 1%Z)]] |}
    [("person_id", Some 2%Z); ("years", Some 1%Z)]
    (or_introl eq_refl) (or_introl eq_refl)).
Defined.

(** The key the engine assigns is larger than every stored one. *)
Lemma next_value_fresh (c : string) (stored : list Engine.row)
      (r0 : Engine.row) (v : Z) :
  In r0 stored -> Engine.cell r0 c = Some v ->
  (v < Engine.next_value c stored)%Z.
Proof.
  unfold Engine.next_value. intros Hin Hv.
  induction stored as [|r1 stored IH]; [destruct Hin|].
  cbn [map fold_right]. destruct Hin as [->|Hin].
  - rewrite Hv. lia.
  - specialize (IH Hin). lia.
Qed.

Lemma collide_pair (r r0 : Engine.row) :
  Engine.collide ["pet_id"; "person_id"] r r0 = true ->
  Engine.pair_of r = Engine.pair_of r0.
Proof.
  unfold Engine.pair_of. simpl.
  destruct (Engine.cell r "pet_id"), (Engine.cell r0 "pet_id");
    simpl; try discriminate.
  destruct (Engine.cell r "person_id"), (Engine.cell r0 "person_id");
    rewrite ?andb_false_r; simpl; try discriminate.
  rewrite andb_true_r. intros H. apply andb_prop in H as [H1 H2].
  apply Z.eqb_eq in H1, H2. now subst.
Qed.

(** The row of a new object with a pair not yet stored is accepted, under
    the key the engine assigns. *)
Lemma insert_new_row (stored : list Engine.row) (r : Engine.row) :
  new_row r ->
  ~ In (Engine.pair_of r) (map Engine.pair_of stored) ->
  Engine.insert ppa stored r =
    Py.Return
      (stored ++ [("id", Some (Engine.next_value "id" stored)) :: r])%list.
Proof.
  intros [Hid [Hpet Hper]] Hnew. unfold Engine.insert.
  rewrite autoincrement_ppa, Hid. cbn [Engine.is_null].
  pose proof (next_value_fresh "id" stored) as Hfr.
  remember (Engine.next_value "id" stored) as nv eqn:Hnv. clear Hnv.
  set (r' := ("id", Some nv) :: r).
  assert (Hp : Engine.pair_of r' = Engine.pair_of r) by reflexivity.
  assert (N : Engine.not_null_ok ppa r' = true).
  { unfold Engine.not_null_ok. simpl.
    destruct (Engine.cell r "pet_id"); [|contradiction].
    destruct (Engine.cell r "person_id"); [|contradiction].
    reflexivity. }
  rewrite N. cbn [negb].
  assert (K : Engine.violated stored r'
                (Engine.mkUnique ["id"] "PRIMARY KEY") = false).
  { unfold Engine.violated. cbn [Engine.ucolumns].
    destruct (existsb (Engine.collide ["id"] r') stored) eqn:E;
      [|reflexivity].
    apply existsb_exists in E as (r0 & Hin & Hc). exfalso.
    unfold Engine.collide in Hc. simpl in Hc.
    destruct (Engine.cell r0 "id") as [b|] eqn:Hb; [|discriminate Hc].
    specialize (Hfr r0 b Hin Hb).
    rewrite andb_true_r in Hc. apply Z.eqb_eq in Hc. lia. }
  assert (U : Engine.violated stored r'
                (Engine.mkUnique ["pet_id"; "person_id"]
                   "person_pet_uniqueness_constraint") = false).
  { unfold Engine.violated. cbn [Engine.ucolumns].
    destruct (existsb (Engine.collide ["pet_id"; "person_id"] r') stored)
      eqn:E; [|reflexivity].
    apply existsb_exists in E as (r0 & Hin & Hc). exfalso.
    apply Hnew. rewrite <- Hp, (collide_pair _ _ Hc).
    now apply in_map. }
  change (Engine.unique_checks ppa)
    with [Engine.mkUnique ["id"] "PRIMARY KEY";
          Engine.mkUnique ["pet_id"; "person_id"]
            "person_pet_uniqueness_constraint"].
  cbn [find]. now rewrite K, U.
Qed.

Lemma insert_all_new_rows (rs stored : list Engine.row) :
  Forall new_row rs ->
  NoDup (map Engine.pair_of (stored ++ rs)) ->
  exists added,
    Engine.insert_all ppa stored rs = Py.Return (stored ++ added)%list /\
    map Engine.pair_of added = map Engine.pair_of rs /\
    map (fun r => Engine.cell r "years") added =
      map (fun r => Engine.cell r "years") rs.
Proof.
  intros Hnew. revert stored.
  induction Hnew as [|r rs Hr _ IH]; intros stored Hnd.
  - exists []. now rewrite app_nil_r.
  - assert (Hfresh : ~ In (Engine.pair_of r) (map Engine.pair_of stored)).
    { rewrite map_app in Hnd. simpl in Hnd.
      apply NoDup_remove_2 in Hnd. intros Hin. apply Hnd.
      apply in_or_app. now left. }
    simpl. rewrite (insert_new_row stored r Hr Hfresh).
    set (r' := ("id", Some (Engine.next_value "id" stored)) :: r).
    destruct (IH (stored ++ [r'])%list) as (added & Hi & Hp & Hy).
    { rewrite <- app_assoc. simpl.
      rewrite map_app in *. simpl in *. exact Hnd. }
    exists (r' :: added). rewrite Hi, <- app_assoc. simpl.
    repeat split; [now rewrite Hp|now rewrite Hy].
Qed.

Lemma new_association_row (a : PetPersonAssociation.t) :
  new_association a -> new_row (Engine.to_row a).
Proof.
  intros (Hid & Hpet & Hper & _). repeat split; assumption.
Qed.

Lemma to_row_cells (objs : list PetPersonAssociation.t) :
  map Engine.pair_of (map Engine.to_row objs) =
    map (fun a => (PetPersonAssociation.pet_id a,
                   PetPersonAssociation.person_id a)) objs /\
  map (fun r => Engine.cell r "years") (map Engine.to_row objs) =
    map PetPersonAssociation.years objs.
Proof. rewrite !map_map. split; reflexivity. Qed.

(** X13. A unit of work made of association objects not yet flushed, each
    with a pet id and a person id and with integer values of at most 64
    bits, whose (pet, person) pairs differ from one another and from the
    stored ones, is committed: the stored rows stay, one row per object is
    appended in order with the object's pair and years, and nothing stays
    pending. *)
Theorem commit_accepts_new_pairs
        (s : Engine.Session) (objs : list PetPersonAssociation.t) :
  Engine.pending s = map Engine.to_row objs ->
  Forall new_association objs ->
  NoDup (map Engine.pair_of (Engine.committed s ++ Engine.pending s)) ->
  exists added,
    Engine.commit ppa s =
      (Py.Return tt,
       {| Engine.committed := (Engine.committed s ++ added)%list;
          Engine.pending := [] |}) /\
    map Engine.pair_of added =
      map (fun a => (PetPersonAssociation.pet_id a,
                     PetPersonAssociation.person_id a)) objs /\
    map (fun r => Engine.cell r "years") added =
      map PetPersonAssociation.years objs.
Proof.
  intros Hpend Hnew Hnd. unfold Engine.commit.
  assert (Hrows : Forall new_row (Engine.pending s)).
  { rewrite Hpend. apply Forall_map.
    eapply Forall_impl; [|exact Hnew]. apply new_association_row. }
  destruct (insert_all_new_rows _ _ Hrows Hnd) as (added & -> & Hp & Hy).
  exists added. rewrite Hp, Hy, Hpend.
  destruct (to_row_cells objs) as [-> ->]. repeat split.
Qed.

Lemma commit_accepts_new_pairs_witness :
  exists added,
    Engine.commit ppa
      {| Engine.committed := [Engine.to_row tom_spot];
         Engine.pending := [Engine.to_row tom_goldie] |} =
      (Py.Return tt,
       {| Engine.committed := ([Engine.to_row tom_spot] ++ added)%list;
          Engine.pending := [] |}) /\
    map Engine.pair_of added = [(Some 2%Z, Some 1%Z)] /\
    map (fun r => Engine.cell r "years") added = [None].
Proof.
  refine (commit_accepts_new_pairs
    {| Engine.committed := [Engine.to_row tom_spot];
       Engine.pending := [Engine.to_row tom_goldie] |}
    [tom_goldie] eq_refl _ _).
  - constructor; [|constructor].
    unfold new_association, fits, int64. simpl.
    repeat split; try discriminate; lia.
  - constructor.
    + intros [H|[]]. discriminate H.
    + constructor; [intros []|constructor].
Defined.

(** What a successful INSERT has checked about the key. *)
Lemma insert_return_id (stored stored' : list Engine.row) (r : Engine.row) :
  Engine.insert ppa stored r = Py.Return stored' ->
  exists r', stored' = (stored ++ [r'])%list /\
             id_of r' <> None /\
             ~ In (id_of r') (map id_of stored).
Proof.
  unfold Engine.insert.
  set (r' := Engine.autoincrement ppa stored r).
  destruct (Engine.not_null_ok ppa r') eqn:Hnn; cbn [negb];
    [|discriminate].
  destruct (find (Engine.violated stored r') (Engine.unique_checks ppa))
    eqn:Hfind; [discriminate|].
  intros H. injection H as <-. exists r'.
  assert (Hid : id_of r' <> None).
  { unfold Engine.not_null_ok in Hnn. simpl in Hnn. unfold id_of.
    destruct (Engine.cell r' "id"); [discriminate|discriminate Hnn]. }
  repeat split; [exact Hid|].
  intros Hin. apply in_map_iff in Hin as (r0 & E & Hin).
  pose proof (find_none _ _ Hfind
    (Engine.mkUnique ["id"] "PRIMARY KEY") (or_introl eq_refl)) as Hv.
  unfold Engine.violated in Hv. cbn [Engine.ucolumns] in Hv.
  assert (Hex : existsb (Engine.collide ["id"] r') stored = true).
  { apply existsb_exists. exists r0. split; [exact Hin|].
    unfold id_of in *. unfold Engine.collide. cbn [forallb].
    rewrite E. destruct (Engine.cell r' "id") as [a|]; [|contradiction].
    now rewrite Z.eqb_refl. }
  congruence.
Qed.

Lemma insert_all_keeps_ids (rs stored stored' : list Engine.row) :
  ids_unique stored ->
  Engine.insert_all ppa stored rs = Py.Return stored' ->
  ids_unique stored'.
Proof.
  revert stored. induction rs as [|r rs IH]; intros stored Hu H; simpl in H.
  - now injection H as <-.
  - destruct (Engine.insert ppa stored r) as [mid|e] eqn:Hi; [|discriminate].
    apply (IH mid); [|exact H].
    apply insert_return_id in Hi as (r' & -> & Hid & Hnew).
    destruct Hu as [Hnd Hall]. split.
    + rewrite map_app. simpl. apply NoDup_app. repeat split.
      * exact Hnd.
      * constructor; [intros []|constructor].
      * intros a Ha [<-|[]]. contradiction.
    + apply Forall_app. split; [exact Hall|]. now constructor.
Qed.

(** X14. In every state reached from the empty table by adding rows and
    committing, every stored association row has an id and no two stored
    rows have the same id, whether the ids were given or assigned. *)
Theorem association_ids_unique (acts : list Engine.action) :
  ids_unique (Engine.committed (Engine.run ppa acts Engine.empty)).
Proof.
  assert (G : forall acts s,
             ids_unique (Engine.committed s) ->
             ids_unique (Engine.committed (Engine.run ppa acts s))).
  { unfold Engine.run. clear acts.
    induction acts as [|a acts IH]; intros s Hu; simpl; [exact Hu|].
    apply IH. destruct a as [rs|]; simpl; [exact Hu|].
    unfold Engine.commit.
    destruct (Engine.insert_all ppa (Engine.committed s) (Engine.pending s))
      as [stored'|e] eqn:Hi; simpl; [|exact Hu].
    eapply insert_all_keeps_ids; eassumption. }
  apply G. split; constructor.
Qed.

End AssociationCommit.

(** ** The loop of [has_pet] *)

(** X15. The loop of [has_pet], run over a list of association rows,
    answers with a number exactly when the first row whose pet is the given
    object has that number as its years: rows of other pets are passed
    over, later rows of the same pet are never consulted, and a first row
    without years gives [None] like no row at all. *)
Theorem has_pet_loop_first_match
        (assocs : list PetPersonAssociation.t) (pet : Pet.t) (y : Z) :
  Person.has_pet_loop assocs pet = Some y <->
  exists l1 a l2,
    assocs = (l1 ++ a :: l2)%list /\
    Forall (fun b => Pet.eq (PetPersonAssociation.pet b) pet = false) l1 /\
    Pet.eq (PetPersonAssociation.pet a) pet = true /\
    PetPersonAssociation.years a = Some y.
Proof.
  split.
  - induction assocs as [|a rest IH]; simpl; [discriminate|].
    destruct (Pet.eq (PetPersonAssociation.pet a) pet) eqn:E.
    + intros Hy. exists [], a, rest. repeat split; [constructor|..]; assumption.
    + intros Hy. destruct (IH Hy) as (l1 & a' & l2 & -> & Hl & Ha & Hya).
      exists (a :: l1), a', l2. repeat split; try assumption.
      now constructor.
  - intros (l1 & a & l2 & -> & Hl & Ha & Hy).
    now rewrite (has_pet_loop_found l1 l2 a pet Hl Ha).
Qed.

Lemma has_pet_loop_first_match_witness :
  Person.has_pet_loop [tom_goldie; tom_spot; tom_spot_again] spot = Some 3%Z.
Proof.
  apply (proj2 (has_pet_loop_first_match
                  [tom_goldie; tom_spot; tom_spot_again] spot 3%Z)).
  exists [tom_goldie], tom_spot, [tom_spot_again].
  repeat split. constructor; [reflexivity|constructor].
Defined.
